(** * The Cloudflare custom-hostname client ([src/cloudflare-api.ts])

    A shallow embedding of the three operations of the client
    ([createCustomHostname], [getCustomHostnameStatus],
    [deleteCustomHostname]) and of the two helpers they share
    ([getAuthHeaders], [isApiConfigured]), followed by the properties the
    specification states about them.

    The module is untyped at run time: what [response.json()] hands back is
    an arbitrary JSON value and every field read on it follows JavaScript's
    rules (a read on [null] or [undefined] throws, a read on a number gives
    [undefined], [a || b] tests truthiness).  The embedding keeps that:
    JavaScript values are an inductive type, property reads return a
    completion (normal or abrupt), and the network is an explicit state
    threaded through every [fetch]. *)

From stdpp Require Import gmap strings list.
From Stdlib Require Import Ascii DecimalString DecimalNat.

Set Warnings "-register-all".
Local Open Scope string_scope.
Local Open Scope list_scope.

(** ** Completions

    A JavaScript evaluation either completes normally with a value or
    abruptly by throwing.  Every [catch] of the module ignores the thrown
    value, so [Throw] carries none. *)

Inductive completion (A : Type) : Type :=
  | Normal (a : A)
  | Throw.
Arguments Normal {A} a.
Arguments Throw {A}.

#[global] Instance completion_ret : MRet completion := λ A a, Normal a.
#[global] Instance completion_bind : MBind completion := λ A B f m,
  match m with
  | Normal a => f a
  | Throw => Throw
  end.

(** ** JavaScript values *)

Module Js.

(** The values the module handles: what [JSON.parse] builds, plus
    [undefined], which reads of missing properties produce.  A number is
    carried as its rendering [String(n)]: the module only ever tests a
    number for truthiness, compares it with [0] and splices it into a
    template literal, and all three are functions of that rendering
    ([0] and [-0] both render as "0").  An object is the finite map of its
    own properties. *)
Inductive value : Type :=
  | VUndef
  | VNull
  | VBool (b : bool)
  | VNum (text : string)
  | VStr (s : string)
  | VArr (elems : list value)
  | VObj (fields : gmap string value).

(** Decimal rendering of a length. *)
Definition nat_text (n : nat) : string :=
  NilZero.string_of_uint (Nat.to_uint n).

(** ToBoolean. *)
Definition truthy (v : value) : bool :=
  match v with
  | VUndef | VNull => false
  | VBool b => b
  | VNum text => negb (String.eqb text "0") && negb (String.eqb text "NaN")
  | VStr s => negb (String.eqb s "")
  | VArr _ | VObj _ => true
  end.

(** [a || b] and [a && b] on already evaluated operands. *)
Definition or (a b : value) : value := if truthy a then a else b.
Definition and (a b : value) : value := if truthy a then b else a.

(** [v === 0]. *)
Definition strict_eq_zero (v : value) : bool :=
  match v with
  | VNum text => String.eqb text "0"
  | _ => false
  end.

(** What a read of [name] gives on an object with own properties
    [fields]: the property's value, [undefined] when there is none. *)
Definition read (fields : gmap string value) (name : string) : value :=
  default VUndef (fields !! name).

(** [v.name] for an identifier [name].  On [undefined] and [null] the read
    throws a TypeError; strings and arrays own [length]; an object answers
    from its own properties.  None of the names the module reads
    ([result], [length], [id], [status], [ssl], [method],
    [validation_method], [validation_errors], [validation_records],
    [verification_errors]) is defined on a built-in prototype, so own
    properties are the whole answer. *)
Definition get_prop (v : value) (name : string) : completion value :=
  match v with
  | VUndef | VNull => Throw
  | VBool _ | VNum _ => Normal VUndef
  | VStr s =>
      Normal (if String.eqb name "length" then VNum (nat_text (String.length s))
              else VUndef)
  | VArr elems =>
      Normal (if String.eqb name "length" then VNum (nat_text (length elems))
              else VUndef)
  | VObj fields => Normal (read fields name)
  end.

(** [v[i]] for a numeric literal [i]. *)
Definition get_index (v : value) (i : nat) : completion value :=
  match v with
  | VUndef | VNull => Throw
  | VBool _ | VNum _ => Normal VUndef
  | VStr s =>
      Normal (match String.get i s with
              | Some c => VStr (String c "")
              | None => VUndef
              end)
  | VArr elems => Normal (default VUndef (elems !! i))
  | VObj fields => Normal (read fields (nat_text i))
  end.

Definition join_texts (texts : list string) : string := String.concat "," texts.

(** ToString, as a template literal applies it.  An array renders as its
    elements joined by commas, [null] and [undefined] elements as empty
    strings.  A parsed object renders as "[object Object]", unless it owns
    a [toString] property: that property is not callable, [valueOf] does
    not give a primitive either, and the conversion throws. *)
Fixpoint to_string (v : value) : completion string :=
  match v with
  | VUndef => Normal "undefined"
  | VNull => Normal "null"
  | VBool true => Normal "true"
  | VBool false => Normal "false"
  | VNum text => Normal text
  | VStr s => Normal s
  | VArr elems =>
      match
        (fix each (l : list value) : completion (list string) :=
           match l with
           | [] => Normal []
           | x :: rest =>
               match (match x with
                      | VUndef | VNull => Normal ""
                      | _ => to_string x
                      end) with
               | Throw => Throw
               | Normal text =>
                   match each rest with
                   | Throw => Throw
                   | Normal texts => Normal (text :: texts)
                   end
               end
           end) elems
      with
      | Throw => Throw
      | Normal texts => Normal (join_texts texts)
      end
  | VObj fields =>
      match fields !! "toString" with
      | Some _ => Throw
      | None => Normal "[object Object]"
      end
  end.

End Js.
Import Js.

(** ** Configuration *)

(** Modelled from the spec: the [Env] type is declared in [./env], which is
    not part of the sources at hand.  The specification describes the
    configuration as supplying two string secrets, a zone identifier and a
    bearer token, either of which may be absent. *)
Record Env : Type := {
  CLOUDFLARE_ZONE_ID : option string;
  DISPATCH_NAMESPACE_API_TOKEN : option string;
}.

(** A field of [env] as a JavaScript value, and as a template literal
    renders it. *)
Definition field (o : option string) : value :=
  match o with
  | Some s => VStr s
  | None => VUndef
  end.

Definition field_text (o : option string) : string :=
  match o with
  | Some s => s
  | None => "undefined"
  end.

(** ** Requests and responses *)

(** What [fetch(url, init)] is given.  [req_method] is [None] where the
    source passes no [method]; [req_body] is the value handed to
    [JSON.stringify]. *)
Record request : Type := {
  req_url : string;
  req_method : option string;
  req_headers : gmap string string;
  req_body : option value;
}.

(** What the module looks at in a [Response]: [ok], and the outcome of
    [await response.json()], which rejects when the body is not JSON. *)
Record response : Type := {
  ok : bool;
  json : completion value;
}.

Definition getAuthHeaders (env : Env) : gmap string string :=
  if truthy (field (DISPATCH_NAMESPACE_API_TOKEN env)) then
    {[ "Authorization" := "Bearer " +:+ field_text (DISPATCH_NAMESPACE_API_TOKEN env);
       "Content-Type" := "application/json" ]}
  else ∅.

Definition isApiConfigured (env : Env) : bool :=
  truthy (Js.and (field (CLOUDFLARE_ZONE_ID env))
                 (field (DISPATCH_NAMESPACE_API_TOKEN env))).

(** The three requests the module builds. *)
Definition create_request (env : Env) (hostname : string) : request :=
  {| req_url := "https://api.cloudflare.com/client/v4/zones/"
                +:+ field_text (CLOUDFLARE_ZONE_ID env) +:+ "/custom_hostnames";
     req_method := Some "POST";
     req_headers := getAuthHeaders env;
     req_body := Some (VObj {[
       "hostname" := VStr hostname;
       "ssl" := VObj {[
         "method" := VStr "http";
         "type" := VStr "dv";
         "settings" := VObj {[
           "http2" := VStr "on";
           "min_tls_version" := VStr "1.2";
           "tls_1_3" := VStr "on" ]} ]} ]}) |}.

Definition lookup_request (env : Env) (hostname : string) : request :=
  {| req_url := "https://api.cloudflare.com/client/v4/zones/"
                +:+ field_text (CLOUDFLARE_ZONE_ID env)
                +:+ "/custom_hostnames?hostname=" +:+ hostname;
     req_method := None;
     req_headers := getAuthHeaders env;
     req_body := None |}.

Definition delete_request (env : Env) (hostnameId : string) : request :=
  {| req_url := "https://api.cloudflare.com/client/v4/zones/"
                +:+ field_text (CLOUDFLARE_ZONE_ID env)
                +:+ "/custom_hostnames/" +:+ hostnameId;
     req_method := Some "DELETE";
     req_headers := getAuthHeaders env;
     req_body := None |}.

(** The results [getCustomHostnameStatus] builds without a remote record. *)
Definition status_error (message : string) : value :=
  VObj {[ "status" := VStr "error";
          "verification_errors" := VArr [VStr message] ]}.

Definition status_not_found : value :=
  VObj {[ "status" := VStr "not_found" ]}.

(** The object literal [getCustomHostnameStatus] returns for the record
    [hostnameData], its properties evaluated in source order. *)
Definition hostname_status (hostnameData : value) : completion value :=
  status ← get_prop hostnameData "status";
  ssl ← get_prop hostnameData "ssl";
  ssl_out ←
    (if truthy ssl then
       ssl_status ← get_prop ssl "status";
       method ← get_prop ssl "method";
       validation_method ←
         (if truthy method then mret method else get_prop ssl "validation_method");
       errors ← get_prop ssl "validation_errors";
       records ← get_prop ssl "validation_records";
       mret (VObj {[
         "status" := ssl_status;
         "validation_method" := validation_method;
         "validation_errors" := Js.or errors (VArr []);
         "validation_records" := Js.or records (VArr []) ]})
     else mret VUndef);
  verification_errors ← get_prop hostnameData "verification_errors";
  mret (VObj {[
    "status" := status;
    "ssl" := ssl_out;
    "verification_errors" := Js.or verification_errors (VArr []) ]}).

(** ** The client over a network *)

Section Client.

(** The network: whatever state the outside world has, and [fetch], which
    for a request either rejects or resolves to a response, changing that
    state. *)
Variable world : Type.
Variable fetch : request → world → completion response * world.

(** The state of a run: the world, and the requests issued so far. *)
Record net : Type := {
  net_world : world;
  net_calls : list request;
}.

(** An asynchronous computation: from a state to a completion and the
    state it leaves. *)
Definition action (A : Type) : Type := net → completion A * net.

#[local] Instance action_ret : MRet action := λ A a s, (Normal a, s).
#[local] Instance action_bind : MBind action := λ A B f m s,
  match m s with
  | (Normal a, s') => f a s'
  | (Throw, s') => (Throw, s')
  end.

(** A synchronous evaluation inside an asynchronous function. *)
Definition lift {A : Type} (c : completion A) : action A := λ s, (c, s).

(** [try { body } catch (error) { handler }]. *)
Definition try_catch {A : Type} (body handler : action A) : action A := λ s,
  match body s with
  | (Normal a, s') => (Normal a, s')
  | (Throw, s') => handler s'
  end.

(** [await fetch(...)]. *)
Definition await_fetch (req : request) : action response := λ s,
  let (outcome, w) := fetch req (net_world s) in
  (outcome, {| net_world := w; net_calls := net_calls s ++ [req] |}).

Definition createCustomHostname (env : Env) (hostname : string) : action bool :=
  if negb (isApiConfigured env) then mret false
  else
    try_catch
      (response ← await_fetch (create_request env hostname);
       mret (ok response))
      (mret false).

Definition getCustomHostnameStatus (env : Env) (hostname : string) : action value :=
  if negb (isApiConfigured env) then mret (status_error "API not configured")
  else
    try_catch
      (response ← await_fetch (lookup_request env hostname);
       result ← lift (json response);
       if negb (ok response) then mret (status_error "API request failed")
       else
         records ← lift (get_prop result "result");
         empty ←
           (if negb (truthy records) then mret true
            else
              len ← lift (get_prop records "length");
              mret (strict_eq_zero len));
         if (empty : bool) then mret status_not_found
         else
           hostnameData ← lift (get_index records 0);
           lift (hostname_status hostnameData))
      (mret (status_error "Network error")).

Definition deleteCustomHostname (env : Env) (hostname : string) : action bool :=
  if negb (isApiConfigured env) then mret false
  else
    try_catch
      (listResponse ← await_fetch (lookup_request env hostname);
       listResult ← lift (json listResponse);
       stop ←
         (if negb (ok listResponse) then mret true
          else
            records ← lift (get_prop listResult "result");
            if negb (truthy records) then mret true
            else
              len ← lift (get_prop records "length");
              mret (strict_eq_zero len));
       if (stop : bool) then mret false
       else
         records ← lift (get_prop listResult "result");
         first ← lift (get_index records 0);
         id ← lift (get_prop first "id");
         hostnameId ← lift (to_string id);
         deleteResponse ← await_fetch (delete_request env hostnameId);
         mret (ok deleteResponse))
      (mret false).

End Client.

Arguments net_world {world} _.
Arguments net_calls {world} _.
Arguments createCustomHostname {world} fetch env hostname _.
Arguments getCustomHostnameStatus {world} fetch env hostname _.
Arguments deleteCustomHostname {world} fetch env hostname _.
Arguments try_catch {world A} body handler _.
Arguments await_fetch {world} fetch req _.
Arguments lift {world A} c _.

(** ** Vocabulary of the specification *)

(** The client is configured: both secrets are present and non-empty. *)
Definition configured (env : Env) : Prop :=
  ∃ zone token,
    CLOUDFLARE_ZONE_ID env = Some zone ∧ zone ≠ "" ∧
    DISPATCH_NAMESPACE_API_TOKEN env = Some token ∧ token ≠ "".

(** The client is unconfigured: a secret is empty or absent. *)
Definition unconfigured (env : Env) : Prop :=
  CLOUDFLARE_ZONE_ID env = None ∨ CLOUDFLARE_ZONE_ID env = Some "" ∨
  DISPATCH_NAMESPACE_API_TOKEN env = None ∨ DISPATCH_NAMESPACE_API_TOKEN env = Some "".

(** The lookup by hostname, issued in world [w], succeeds and finds a
    record: the call resolves to a successful response whose body parses,
    and the [result] of the body is non-empty with [first] at index 0. *)
Definition lookup_finds {world : Type}
    (fetch : request → world → completion response * world)
    (env : Env) (hostname : string) (w : world) (first : value) (w1 : world) : Prop :=
  ∃ resp body records len,
    fetch (lookup_request env hostname) w = (Normal resp, w1) ∧
    ok resp = true ∧
    json resp = Normal body ∧
    get_prop body "result" = Normal records ∧
    truthy records = true ∧
    get_prop records "length" = Normal len ∧
    strict_eq_zero len = false ∧
    get_index records 0 = Normal first.

(** ** A scripted transport

    The mock the specification's tests speak of: the world is the list of
    outcomes still to be served, each [fetch] takes the next one, and a
    call beyond the script is rejected. *)
Definition fetch_script (req : request) (script : list (completion response))
    : completion response * list (completion response) :=
  match script with
  | [] => (Throw, [])
  | outcome :: rest => (outcome, rest)
  end.

Definition start {world : Type} (w : world) : net world :=
  {| net_world := w; net_calls := [] |}.

Definition example_env : Env :=
  {| CLOUDFLARE_ZONE_ID := Some "zone-1";
     DISPATCH_NAMESPACE_API_TOKEN := Some "secret" |}.

Definition replies (body : value) : completion response :=
  Normal {| ok := true; json := Normal body |}.

(** ** Query components

    Not part of the module: the spelling under which a lookup filters by a
    literal hostname.  A query component is percent-encoded, every byte
    outside the unreserved set written as [%XX], as the platform's
    [encodeURIComponent] does. *)
Definition unreserved (c : ascii) : bool :=
  let n := Ascii.nat_of_ascii c in
  ((65 <=? n)%nat && (n <=? 90)%nat) || ((97 <=? n)%nat && (n <=? 122)%nat)
  || ((48 <=? n)%nat && (n <=? 57)%nat)
  || bool_decide (c ∈ String.list_ascii_of_string "-_.!~*'()").

Definition hex_digit (n : nat) : ascii :=
  default "0"%char (String.get n "0123456789ABCDEF").

Definition percent_encode (c : ascii) : string :=
  let n := Ascii.nat_of_ascii c in
  String "%" (String (hex_digit (n / 16)) (String (hex_digit (n mod 16)) "")).

Fixpoint encodeURIComponent (s : string) : string :=
  match s with
  | "" => ""
  | String c rest =>
      (if unreserved c then String c "" else percent_encode c)
      +:+ encodeURIComponent rest
  end.

(** A character that splits a query string: ["&"] ends a parameter, ["#"]
    ends the query. *)
Definition query_metachar (c : ascii) : bool :=
  bool_decide (c = "&"%char) || bool_decide (c = "#"%char).

(** The state after one more call. *)
Definition after_call {world : Type} (s : net world) (req : request) (w : world)
    : net world :=
  {| net_world := w; net_calls := net_calls s ++ [req] |}.

(** A status value carries an ssl sub-record: reading its [ssl] gives
    something other than [undefined].  (A property that holds [undefined]
    reads like a missing one, and serialisation drops it.) *)
Definition carries_ssl (status : value) : Prop :=
  ∃ sub, get_prop status "ssl" = Normal sub ∧ sub ≠ VUndef.

(** The example of the specification: a body with one pending record, and
    the status it is projected to. *)
Definition example_body : value :=
  VObj {[ "result" := VArr [
    VObj {[ "id" := VStr "x";
            "status" := VStr "pending";
            "ssl" := VObj {[ "status" := VStr "pending_validation";
                             "method" := VStr "http" ]} ]} ] ]}.

Definition example_status : value :=
  VObj {[ "status" := VStr "pending";
          "ssl" := VObj {[ "status" := VStr "pending_validation";
                           "validation_method" := VStr "http";
                           "validation_errors" := VArr [];
                           "validation_records" := VArr [] ]};
          "verification_errors" := VArr [] ]}.

(** Further inputs the properties below are evaluated at: a configuration
    with a token and no zone, a failed response whose body is not JSON, a
    body with two records, and a body whose one record has the status
    "not_found" and an ssl object. *)
Definition token_only_env : Env :=
  {| CLOUDFLARE_ZONE_ID := None;
     DISPATCH_NAMESPACE_API_TOKEN := Some "secret" |}.

Definition failed_unparseable : completion response :=
  Normal {| ok := false; json := Throw |}.

Definition two_records : list value :=
  [VObj {[ "id" := VStr "x" ]}; VObj {[ "id" := VStr "y" ]}].

Definition not_found_record_body : value :=
  VObj {[ "result" := VArr [
    VObj {[ "id" := VStr "x";
            "status" := VStr "not_found";
            "ssl" := VObj {[ "status" := VStr "active" ]} ]} ] ]}.

(** A request bears the token of the configuration: the token is present
    and non-empty, and the request's headers are [Authorization] with that
    token after "Bearer " and [Content-Type], those two and no other. *)
Definition bears_token (env : Env) (req : request) : Prop :=
  ∃ token,
    DISPATCH_NAMESPACE_API_TOKEN env = Some token ∧ token ≠ "" ∧
    req_headers req =
      {[ "Authorization" := "Bearer " +:+ token;
         "Content-Type" := "application/json" ]}.

(** ** The declared result type

    The interface [CustomHostnameStatus] of the source, as a test on
    values.  A property marked optional may be missing or hold
    [undefined]; properties the interface does not name are free. *)
Definition is_string (v : value) : bool :=
  match v with
  | VStr _ => true
  | _ => false
  end.

Definition optional (p : value → bool) (v : value) : bool :=
  match v with
  | VUndef => true
  | _ => p v
  end.

Definition array_of (p : value → bool) (v : value) : bool :=
  match v with
  | VArr elems => forallb p elems
  | _ => false
  end.

(** ['active' | 'pending' | 'error' | 'not_found']. *)
Definition is_status_tag (v : value) : bool :=
  match v with
  | VStr s =>
      String.eqb s "active" || String.eqb s "pending"
      || String.eqb s "error" || String.eqb s "not_found"
  | _ => false
  end.

(** An element of [validation_records]. *)
Definition is_validation_record (v : value) : bool :=
  match v with
  | VObj fields =>
      optional is_string (read fields "txt_name")
      && optional is_string (read fields "txt_value")
      && optional is_string (read fields "http_url")
      && optional is_string (read fields "http_body")
  | _ => false
  end.

(** The [ssl] sub-record. *)
Definition is_ssl (v : value) : bool :=
  match v with
  | VObj fields =>
      is_string (read fields "status")
      && optional is_string (read fields "validation_method")
      && optional (array_of is_string) (read fields "validation_errors")
      && optional (array_of is_validation_record) (read fields "validation_records")
  | _ => false
  end.

Definition is_CustomHostnameStatus (v : value) : bool :=
  match v with
  | VObj fields =>
      is_status_tag (read fields "status")
      && optional is_ssl (read fields "ssl")
      && optional (array_of is_string) (read fields "verification_errors")
  | _ => false
  end.

(** A body whose one record has a number for status. *)
Definition numeric_status_body : value :=
  VObj {[ "result" := VArr [ VObj {[ "id" := VStr "x"; "status" := VNum "7" ]} ] ]}.

(** [null] and [undefined], on which every read throws. *)
Definition nullish (v : value) : Prop := v = VUndef ∨ v = VNull.

(** ** Tactics *)

(** Splits on whether each string compared with the empty one is empty. *)
Ltac split_empty :=
  repeat match goal with
         | |- context [String.eqb ?s ""] =>
             destruct (String.eqb_spec s ""); subst; simpl
         end.

(** Unfolds an operation down to the outcome of its first [fetch]. *)
Ltac run_client :=
  unfold createCustomHostname, getCustomHostnameStatus, deleteCustomHostname,
    try_catch, await_fetch, lift, mbind, mret, action_bind, action_ret; simpl.

(** Refutes that the lookup finds a record, from the equations in context
    that say where it stops. *)
Ltac refute_finds :=
  right;
  intros (first' & r' & b' & l' & n' & Hf' & Hok' & Hj' & Hres' & Ht' & Hlen' & Hz' & H0');
  repeat match goal with
         | H1 : ?x = _, H2 : ?x = _ |- _ => rewrite H1 in H2; simplify_eq
         end;
  congruence.

(** * Properties *)

(** ** Configuration *)

Lemma nonempty_eqb (s : string) : negb (String.eqb s "") = true ↔ s ≠ "".
Proof. destruct (String.eqb_spec s ""); simpl; split; congruence. Qed.

Lemma isApiConfigured_true (env : Env) :
  isApiConfigured env = true ↔ configured env.
Proof.
  unfold isApiConfigured, configured, Js.and.
  destruct env as [[zone|] [token|]]; simpl; split_empty;
    (split; [try discriminate; eauto 10
            | intros (z & t & ? & ? & ? & ?); simplify_eq; done]).
Qed.

Lemma isApiConfigured_false (env : Env) :
  isApiConfigured env = false ↔ unconfigured env.
Proof.
  unfold isApiConfigured, unconfigured, Js.and.
  destruct env as [[zone|] [token|]]; simpl; split_empty;
    (split; [try discriminate; intros _; eauto
            | intros [?|[?|[?|?]]]; simplify_eq; done]).
Qed.

Lemma configured_not_unconfigured (env : Env) :
  configured env → ¬ unconfigured env.
Proof.
  intros Hc%isApiConfigured_true Hu%isApiConfigured_false. congruence.
Qed.

(** C8, as amended. [getAuthHeaders] looks at the token alone: with a
    non-empty token it gives exactly the two headers [Authorization], the
    token prefixed by "Bearer ", and [Content-Type]; with the token empty or
    absent it gives no header.  The zone identifier plays no part. *)
Theorem getAuthHeaders_by_token (env : Env) :
  (∀ token,
     DISPATCH_NAMESPACE_API_TOKEN env = Some token → token ≠ "" →
     getAuthHeaders env =
       {[ "Authorization" := "Bearer " +:+ token;
          "Content-Type" := "application/json" ]}) ∧
  (DISPATCH_NAMESPACE_API_TOKEN env = None ∨
   DISPATCH_NAMESPACE_API_TOKEN env = Some "" →
   getAuthHeaders env = ∅).
Proof.
  unfold getAuthHeaders. split.
  - intros token -> Hne%nonempty_eqb. simpl. by rewrite Hne.
  - by intros [-> | ->].
Qed.

(** ** JavaScript values *)

Lemma nat_text_zero (n : nat) : nat_text n = "0" ↔ n = 0.
Proof.
  split; [|by intros ->].
  unfold nat_text. intros H.
  rewrite <- (DecimalNat.Unsigned.of_to n).
  assert (Nat.to_uint n = Decimal.Nil ∨ Nat.to_uint n ≠ Decimal.Nil) as [-> | Hnil]
    by (destruct (Nat.to_uint n); (by left) || (by right)); [done|].
  apply NilZero.usu in Hnil. rewrite H in Hnil. by injection Hnil as <-.
Qed.

Lemma length_not_zero (x : value) (rest : list value) :
  strict_eq_zero (VNum (nat_text (length (x :: rest)))) = false.
Proof.
  simpl. destruct (String.eqb_spec (nat_text (S (length rest))) "0") as [H|]; [|done].
  by apply nat_text_zero in H.
Qed.

(** A read on a truthy value never throws. *)
Lemma get_prop_truthy (v : value) (name : string) :
  truthy v = true → ∃ x, get_prop v name = Normal x.
Proof. destruct v; simpl; eauto; discriminate. Qed.

Lemma get_index_truthy (v : value) (i : nat) :
  truthy v = true → ∃ x, get_index v i = Normal x.
Proof. destruct v; simpl; eauto; discriminate. Qed.

(** The literal results carry no [ssl] property. *)
Lemma status_error_no_ssl (message : string) :
  get_prop (status_error message) "ssl" = Normal VUndef.
Proof. reflexivity. Qed.

Lemma status_not_found_no_ssl : get_prop status_not_found "ssl" = Normal VUndef.
Proof. reflexivity. Qed.

(** The projection of a record that is an object. *)
Lemma hostname_status_object (fields : gmap string value) :
  ∃ ssl_out,
    hostname_status (VObj fields) =
      Normal (VObj {[
        "status" := read fields "status";
        "ssl" := ssl_out;
        "verification_errors" :=
          Js.or (read fields "verification_errors") (VArr []) ]}) ∧
    (truthy (read fields "ssl") = false → ssl_out = VUndef) ∧
    (truthy (read fields "ssl") = true →
       ∃ ssl_status method validation_method errors records,
         get_prop (read fields "ssl") "status" = Normal ssl_status ∧
         get_prop (read fields "ssl") "method" = Normal method ∧
         get_prop (read fields "ssl") "validation_method"
           = Normal validation_method ∧
         get_prop (read fields "ssl") "validation_errors" = Normal errors ∧
         get_prop (read fields "ssl") "validation_records" = Normal records ∧
         ssl_out = VObj {[
           "status" := ssl_status;
           "validation_method" := Js.or method validation_method;
           "validation_errors" := Js.or errors (VArr []);
           "validation_records" := Js.or records (VArr []) ]}).
Proof.
  unfold hostname_status. simpl.
  destruct (truthy (read fields "ssl")) eqn:Hssl; simpl.
  - destruct (get_prop_truthy _ "status" Hssl) as [a Ha].
    destruct (get_prop_truthy _ "method" Hssl) as [b Hb].
    destruct (get_prop_truthy _ "validation_method" Hssl) as [c Hc].
    destruct (get_prop_truthy _ "validation_errors" Hssl) as [d Hd].
    destruct (get_prop_truthy _ "validation_records" Hssl) as [e He].
    rewrite Ha, Hb, Hd, He. simpl.
    exists (VObj {[ "status" := a;
                    "validation_method" := Js.or b c;
                    "validation_errors" := Js.or d (VArr []);
                    "validation_records" := Js.or e (VArr []) ]}).
    split; [|split; [discriminate|]].
    + unfold mbind, completion_bind, mret, completion_ret.
      destruct (truthy b) eqn:Hb'; [|rewrite Hc]; unfold Js.or; by rewrite Hb'.
    + intros _. by exists a, b, c, d, e.
  - exists VUndef. split; [reflexivity|]. split; [done|discriminate].
Qed.

(** ** Query components *)

Lemma chars_app (a b : string) :
  String.list_ascii_of_string (a +:+ b) =
    String.list_ascii_of_string a ++ String.list_ascii_of_string b.
Proof. induction a as [|c a IH]; simpl; [done|]. by rewrite IH. Qed.

(** No escaped character is a metacharacter. *)
Lemma escape_no_metachar (c : ascii) :
  forallb (λ x, negb (query_metachar x))
    (String.list_ascii_of_string
       (if unreserved c then String c "" else percent_encode c)) = true.
Proof. by destruct c as [[] [] [] [] [] [] [] []]. Qed.

Lemma encodeURIComponent_no_metachar (s : string) :
  forallb (λ x, negb (query_metachar x))
    (String.list_ascii_of_string (encodeURIComponent s)) = true.
Proof.
  induction s as [|c s IH]; simpl; [done|].
  by rewrite chars_app, forallb_app, escape_no_metachar, IH.
Qed.

(** A text with a metacharacter is not its own encoding. *)
Lemma encodeURIComponent_changes (s : string) (c : ascii) :
  c ∈ String.list_ascii_of_string s → query_metachar c = true →
  s ≠ encodeURIComponent s.
Proof.
  intros Hin Hmeta Heq. rewrite Heq in Hin. apply list_elem_of_In in Hin.
  pose proof (encodeURIComponent_no_metachar s) as Hsafe.
  rewrite forallb_forall in Hsafe. apply Hsafe in Hin. by rewrite Hmeta in Hin.
Qed.

Section ClientFacts.

Context {world : Type}.
Variable fetch : request → world → completion response * world.

(** C2. When the zone identifier or the bearer token is empty or absent,
    each operation returns its unconfigured result and leaves the network
    untouched: no request is issued. *)
Theorem unconfigured_no_network (env : Env) (hostname : string) (s : net world) :
  unconfigured env →
  createCustomHostname fetch env hostname s = (Normal false, s) ∧
  getCustomHostnameStatus fetch env hostname s =
    (Normal (VObj {[ "status" := VStr "error";
                     "verification_errors" := VArr [VStr "API not configured"] ]}), s) ∧
  deleteCustomHostname fetch env hostname s = (Normal false, s).
Proof.
  intros Hu%isApiConfigured_false. run_client. by rewrite Hu.
Qed.

(** C3. [createCustomHostname] returns [true] exactly when the client is
    configured and its POST resolves to a response with a successful
    status; otherwise (unconfigured, non-success status, rejected call) it
    returns [false].  A configured client issues that one POST and nothing
    else; an unconfigured one issues nothing. *)
Theorem createCustomHostname_true_iff (env : Env) (hostname : string) (s : net world) :
  ∃ (b : bool) s',
    createCustomHostname fetch env hostname s = (Normal b, s') ∧
    (b = true ↔
       configured env ∧
       ∃ resp w1, fetch (create_request env hostname) (net_world s) = (Normal resp, w1)
                  ∧ ok resp = true) ∧
    net_calls s' =
      net_calls s ++ (if isApiConfigured env then [create_request env hostname] else []) ∧
    req_method (create_request env hostname) = Some "POST".
Proof.
  run_client. destruct (isApiConfigured env) eqn:Hc; simpl.
  - apply isApiConfigured_true in Hc.
    destruct (fetch _ (net_world s)) as [[resp|] w1] eqn:Hf.
    + eexists _, _. split_and!; [done| |done|done].
      split; [eauto 6|]. by intros (_ & r & w & [= <- <-] & ?).
    + eexists _, _. split_and!; [done| |done|done].
      split; [done|]. by intros (_ & r & w & [=] & ?).
  - eexists _, _. split_and!; [done| |by rewrite app_nil_r|done].
    split; [done|]. intros [Habs%isApiConfigured_true _]. congruence.
Qed.

(** C7. When the lookup succeeds and the body has an empty [result] list,
    or no [result] field at all, [getCustomHostnameStatus] returns the
    object whose only property is [status], with value "not_found". *)
Theorem getCustomHostnameStatus_not_found
    (env : Env) (hostname : string) (s : net world)
    (resp : response) (w1 : world) (body : gmap string value) :
  configured env →
  fetch (lookup_request env hostname) (net_world s) = (Normal resp, w1) →
  ok resp = true →
  json resp = Normal (VObj body) →
  body !! "result" = Some (VArr []) ∨ body !! "result" = None →
  getCustomHostnameStatus fetch env hostname s =
    (Normal (VObj {[ "status" := VStr "not_found" ]}),
     after_call s (lookup_request env hostname) w1).
Proof.
  intros Hc%isApiConfigured_true Hf Hok Hj Hres. run_client.
  rewrite Hc. simpl. rewrite Hf, Hj, Hok. simpl. unfold read.
  by destruct Hres as [-> | ->].
Qed.

(** A successful lookup whose [result] is a non-empty array finds the
    first element. *)
Lemma lookup_finds_array (env : Env) (hostname : string) (w w1 : world)
    (resp : response) (body first : value) (rest : list value) :
  fetch (lookup_request env hostname) w = (Normal resp, w1) →
  ok resp = true →
  json resp = Normal body →
  get_prop body "result" = Normal (VArr (first :: rest)) →
  lookup_finds fetch env hostname w first w1.
Proof.
  intros Hf Hok Hj Hres.
  exists resp, body, (VArr (first :: rest)), (VNum (nat_text (length (first :: rest)))).
  split_and!; try done. apply length_not_zero.
Qed.

(** What [getCustomHostnameStatus] returns once the lookup has found a
    record: its projection, or the catch-all result when projecting
    throws. *)
Lemma getCustomHostnameStatus_found
    (env : Env) (hostname : string) (s : net world) (first : value) (w1 : world) :
  isApiConfigured env = true →
  lookup_finds fetch env hostname (net_world s) first w1 →
  getCustomHostnameStatus fetch env hostname s =
    (match hostname_status first with
     | Normal out => Normal out
     | Throw => Normal (status_error "Network error")
     end, after_call s (lookup_request env hostname) w1).
Proof.
  intros Hc (resp & body & records & len & Hf & Hok & Hj & Hres & Ht & Hlen & Hz & H0).
  run_client. rewrite Hc. simpl. rewrite Hf, Hj, Hok. simpl.
  rewrite Hres, Ht. simpl. rewrite Hlen, Hz, H0.
  by destruct (hostname_status first).
Qed.

(** C6. When the lookup succeeds and the [result] list starts with a
    record, [getCustomHostnameStatus] returns the projection of that
    record: [status] is the record's, untouched; an ssl sub-record is
    carried exactly when the record has one (its [ssl] is truthy, as
    every object is), and then holds the record's ssl [status], its
    [method] if that is truthy and else its [validation_method], and its
    [validation_errors] and [validation_records], each replaced by the
    empty list when missing; [verification_errors] likewise.  On the
    specification's example body the result is the example status. *)
Theorem getCustomHostnameStatus_projects_first_record
    (env : Env) (hostname : string) (s : net world) (resp : response) (w1 : world)
    (body : value) (first : gmap string value) (rest : list value) :
  configured env →
  fetch (lookup_request env hostname) (net_world s) = (Normal resp, w1) →
  ok resp = true →
  json resp = Normal body →
  get_prop body "result" = Normal (VArr (VObj first :: rest)) →
  ∃ out,
    getCustomHostnameStatus fetch env hostname s =
      (Normal (VObj out), after_call s (lookup_request env hostname) w1) ∧
    out !! "status" = Some (read first "status") ∧
    (carries_ssl (VObj out) ↔ truthy (read first "ssl") = true) ∧
    (∀ ssl, first !! "ssl" = Some (VObj ssl) →
       out !! "ssl" = Some (VObj {[
         "status" := read ssl "status";
         "validation_method" :=
           if truthy (read ssl "method") then read ssl "method"
           else read ssl "validation_method";
         "validation_errors" :=
           if truthy (read ssl "validation_errors") then read ssl "validation_errors"
           else VArr [];
         "validation_records" :=
           if truthy (read ssl "validation_records") then read ssl "validation_records"
           else VArr [] ]})) ∧
    out !! "verification_errors" =
      Some (if truthy (read first "verification_errors")
            then read first "verification_errors" else VArr []) ∧
    (body = example_body → VObj out = example_status).
Proof.
  intros Hc%isApiConfigured_true Hf Hok Hj Hres.
  destruct (hostname_status_object first) as (ssl_out & Hout & Hnone & Hsome).
  eexists. split.
  { rewrite (getCustomHostnameStatus_found env hostname s (VObj first) w1 Hc)
      by eauto using lookup_finds_array.
    by rewrite Hout. }
  split; [done|]. split; [|split; [|split; [done|]]].
  - unfold carries_ssl. simpl. unfold read at 1.
    rewrite lookup_insert_ne, lookup_insert_eq by done. simpl.
    destruct (truthy (read first "ssl")) eqn:Hssl.
    + destruct (Hsome eq_refl) as (a & b & c & d & e & _ & _ & _ & _ & _ & ->).
      split; [done|]. intros _. by eexists.
    + rewrite (Hnone eq_refl). split; [|done]. by intros (sub & [= <-] & ?).
  - intros ssl Hssl. rewrite lookup_insert_ne, lookup_insert_eq by done.
    unfold read at 1 2 3 4 5 6 in Hsome. rewrite Hssl in Hsome. simpl in Hsome.
    destruct (Hsome eq_refl) as (a & b & c & d & e & [= <-] & [= <-] & [= <-] & [= <-] & [= <-] & ->).
    done.
  - intros ->. vm_compute in Hres. injection Hres as <- <-.
    match type of Hout with
    | ?projection = _ =>
        assert (projection = Normal example_status) as Hex by (by vm_compute)
    end.
    rewrite Hout in Hex. congruence.
Qed.

(** Whether the lookup finds a record is settled by the outcome of the
    call. *)
Lemma lookup_finds_or_not
    (env : Env) (hostname : string) (w : world)
    (outcome : completion response) (w1 : world) :
  fetch (lookup_request env hostname) w = (outcome, w1) →
  (∃ first, lookup_finds fetch env hostname w first w1) ∨
  ¬ (∃ first, lookup_finds fetch env hostname w first w1).
Proof.
  intros Hf.
  destruct outcome as [resp|]; [|refute_finds].
  destruct (ok resp) eqn:Hok; [|refute_finds].
  destruct (json resp) as [body|] eqn:Hj; [|refute_finds].
  destruct (get_prop body "result") as [records|] eqn:Hres; [|refute_finds].
  destruct (truthy records) eqn:Ht; [|refute_finds].
  destruct (get_prop_truthy records "length" Ht) as [len Hlen].
  destruct (strict_eq_zero len) eqn:Hz; [refute_finds|].
  destruct (get_index_truthy records 0 Ht) as [first H0].
  left. by exists first, resp, body, records, len.
Qed.

(** What [getCustomHostnameStatus] returns when the lookup finds none:
    one of its results without a record, after the one call. *)
Lemma getCustomHostnameStatus_missed
    (env : Env) (hostname : string) (s : net world)
    (outcome : completion response) (w1 : world) :
  isApiConfigured env = true →
  fetch (lookup_request env hostname) (net_world s) = (outcome, w1) →
  (¬ ∃ first, lookup_finds fetch env hostname (net_world s) first w1) →
  ∃ out,
    getCustomHostnameStatus fetch env hostname s =
      (Normal out, after_call s (lookup_request env hostname) w1) ∧
    (out = status_not_found ∨ ∃ message, out = status_error message).
Proof.
  intros Hc Hf Hmiss. run_client. rewrite Hc. simpl. rewrite Hf.
  destruct outcome as [resp|]; [|by eauto 6].
  destruct (json resp) as [body|] eqn:Hj; [|by eauto 6].
  destruct (ok resp) eqn:Hok; [|by eauto 6]. simpl.
  destruct (get_prop body "result") as [records|] eqn:Hres; [|by eauto 6].
  destruct (truthy records) eqn:Ht; [|by eauto 6]. simpl.
  destruct (get_prop_truthy records "length" Ht) as [len Hlen]. rewrite Hlen.
  destruct (strict_eq_zero len) eqn:Hz; [by eauto 6|].
  destruct (get_index_truthy records 0 Ht) as [first H0].
  destruct Hmiss. by exists first, resp, body, records, len.
Qed.

(** C9, as amended. A value returned by [getCustomHostnameStatus] is
    either one of the results built without a remote record ("not_found"
    alone, or "error" with one message), which carry no ssl sub-record,
    or the projection of the record the lookup found.  The status of a
    projection is the record's own, whatever it is, so nothing is said of
    its ssl. *)
Theorem getCustomHostnameStatus_ssl_only_from_record
    (env : Env) (hostname : string) (s : net world) :
  ∃ out s',
    getCustomHostnameStatus fetch env hostname s = (Normal out, s') ∧
    ((¬ carries_ssl out ∧
      (out = VObj {[ "status" := VStr "not_found" ]} ∨
       ∃ message,
         out = VObj {[ "status" := VStr "error";
                       "verification_errors" := VArr [VStr message] ]}))
     ∨
     (∃ first w1,
        configured env ∧
        lookup_finds fetch env hostname (net_world s) first w1 ∧
        hostname_status first = Normal out)).
Proof.
  assert (Hnf : ¬ carries_ssl status_not_found)
    by (by intros (sub & [= <-] & ?)).
  assert (Herr : ∀ message, ¬ carries_ssl (status_error message))
    by (by intros message (sub & [= <-] & ?)).
  destruct (isApiConfigured env) eqn:Hc.
  2:{ run_client. rewrite Hc. simpl. eexists _, _. split; [done|].
      left. split; [apply Herr|]. right. by eexists. }
  destruct (fetch (lookup_request env hostname) (net_world s)) as [outcome w1] eqn:Hf.
  destruct (lookup_finds_or_not env hostname (net_world s) outcome w1 Hf)
    as [[first Hfinds] | Hmiss].
  - rewrite (getCustomHostnameStatus_found env hostname s first w1 Hc Hfinds).
    destruct (hostname_status first) as [out|] eqn:Hout.
    + eexists _, _. split; [done|]. right. exists first, w1.
      by apply isApiConfigured_true in Hc.
    + eexists _, _. split; [done|].
      left. split; [apply Herr|]. right. by eexists.
  - destruct (getCustomHostnameStatus_missed env hostname s outcome w1 Hc Hf Hmiss)
      as (out & -> & [-> | [message ->]]); eexists _, _; (split; [done|]); left.
    + split; [apply Hnf|]. by left.
    + split; [apply Herr|]. right. by eexists.
Qed.

(** What [deleteCustomHostname] does once the lookup has found a record:
    it renders the record's [id] and issues the DELETE addressed by it. *)
Lemma deleteCustomHostname_found
    (env : Env) (hostname : string) (s : net world) (first : value) (w1 : world) :
  isApiConfigured env = true →
  lookup_finds fetch env hostname (net_world s) first w1 →
  deleteCustomHostname fetch env hostname s =
    match get_prop first "id" ≫= to_string with
    | Throw => (Normal false, after_call s (lookup_request env hostname) w1)
    | Normal hostnameId =>
        let (outcome, w2) := fetch (delete_request env hostnameId) w1 in
        (Normal (match outcome with
                 | Normal deleteResponse => ok deleteResponse
                 | Throw => false
                 end),
         after_call (after_call s (lookup_request env hostname) w1)
                    (delete_request env hostnameId) w2)
    end.
Proof.
  intros Hc (resp & body & records & len & Hf & Hok & Hj & Hres & Ht & Hlen & Hz & H0).
  run_client. rewrite Hc. simpl. rewrite Hf, Hj, Hok. simpl.
  rewrite Hres, Ht. simpl. rewrite Hlen, Hz, H0.
  destruct (get_prop first "id") as [id|]; simpl; [|done].
  destruct (to_string id) as [hostnameId|]; simpl; [|done].
  by destruct (fetch (delete_request env hostnameId) w1) as [[deleteResponse|] w2].
Qed.

(** What it does when the lookup finds none: one call, and [false]. *)
Lemma deleteCustomHostname_missed
    (env : Env) (hostname : string) (s : net world)
    (outcome : completion response) (w1 : world) :
  isApiConfigured env = true →
  fetch (lookup_request env hostname) (net_world s) = (outcome, w1) →
  (¬ ∃ first, lookup_finds fetch env hostname (net_world s) first w1) →
  deleteCustomHostname fetch env hostname s =
    (Normal false, after_call s (lookup_request env hostname) w1).
Proof.
  intros Hc Hf Hmiss. run_client. rewrite Hc. simpl. rewrite Hf.
  destruct outcome as [resp|]; [|done].
  destruct (json resp) as [body|] eqn:Hj; [|done].
  destruct (ok resp) eqn:Hok; [|done]. simpl.
  destruct (get_prop body "result") as [records|] eqn:Hres; [|done].
  destruct (truthy records) eqn:Ht; [|done]. simpl.
  destruct (get_prop_truthy records "length" Ht) as [len Hlen]. rewrite Hlen.
  destruct (strict_eq_zero len) eqn:Hz; [done|].
  destruct (get_index_truthy records 0 Ht) as [first H0].
  destruct Hmiss. by exists first, resp, body, records, len.
Qed.

(** The lookup finds at most one thing. *)
Lemma lookup_finds_unique
    (env : Env) (hostname : string) (w : world) (a b : value) (wa wb : world) :
  lookup_finds fetch env hostname w a wa →
  lookup_finds fetch env hostname w b wb →
  a = b ∧ wa = wb.
Proof.
  intros (r1 & b1 & l1 & n1 & Hf1 & _ & Hj1 & Hr1 & _ & _ & _ & H1)
         (r2 & b2 & l2 & n2 & Hf2 & _ & Hj2 & Hr2 & _ & _ & _ & H2).
  rewrite Hf1 in Hf2. injection Hf2 as <- <-.
  rewrite Hj1 in Hj2. injection Hj2 as <-.
  rewrite Hr1 in Hr2. injection Hr2 as <-.
  rewrite H1 in H2. by injection H2 as <-.
Qed.

(** C5, as amended. A configured [deleteCustomHostname] returns [false]
    after its one lookup call, with no DELETE issued, when that call is
    rejected, when the response is not successful or its body does not
    parse, and when the [result] list is empty.  It returns [true] exactly
    when the lookup finds a record (the first of the list, however many
    follow) and the DELETE addressed by the rendering of that record's
    [id] resolves to a successful response. *)
Theorem deleteCustomHostname_first_record
    (env : Env) (hostname : string) (s : net world) :
  configured env →
  ∃ (b : bool) s',
    deleteCustomHostname fetch env hostname s = (Normal b, s') ∧
    (∀ outcome w1,
       fetch (lookup_request env hostname) (net_world s) = (outcome, w1) →
       outcome = Throw ∨
       (∃ resp, outcome = Normal resp ∧
          (ok resp = false ∨ json resp = Throw ∨
           ∃ body, json resp = Normal body ∧
                   get_prop body "result" = Normal (VArr []))) →
       b = false ∧ s' = after_call s (lookup_request env hostname) w1) ∧
    (b = true ↔
       ∃ first w1 id hostnameId deleteResponse w2,
         lookup_finds fetch env hostname (net_world s) first w1 ∧
         get_prop first "id" = Normal id ∧
         to_string id = Normal hostnameId ∧
         fetch (delete_request env hostnameId) w1 = (Normal deleteResponse, w2) ∧
         ok deleteResponse = true).
Proof.
  intros Hc%isApiConfigured_true.
  destruct (fetch (lookup_request env hostname) (net_world s)) as [outcome w1] eqn:Hf.
  destruct (lookup_finds_or_not env hostname (net_world s) outcome w1 Hf)
    as [[first Hfinds] | Hmiss].
  - rewrite (deleteCustomHostname_found env hostname s first w1 Hc Hfinds).
    assert (Hnot : ∀ o w,
      (o, w) = (outcome, w1) →
      o = Throw ∨
      (∃ resp, o = Normal resp ∧
         (ok resp = false ∨ json resp = Throw ∨
          ∃ body, json resp = Normal body ∧
                  get_prop body "result" = Normal (VArr []))) → False).
    { intros o w [= -> ->] Hbad.
      destruct Hfinds as (r & bd & l & n & Hf' & Hok & Hj & Hres & Ht & Hlen & Hz & H0).
      rewrite Hf in Hf'. injection Hf' as ->.
      destruct Hbad as [|(resp & [= <-] & [Hbad | [Hbad | (body & Hb & Hempty)]])];
        try congruence.
      rewrite Hj in Hb. injection Hb as <-. rewrite Hres in Hempty.
      injection Hempty as ->. simpl in Hlen. injection Hlen as <-. done. }
    destruct (get_prop first "id") as [id|] eqn:Hid; simpl.
    2:{ eexists _, _. split; [done|]. split; [intros; exfalso; eauto|].
        split; [done|]. intros (f & w & i & h & r & w2 & Hfinds' & Hid' & _).
        destruct (lookup_finds_unique _ _ _ _ _ _ _ Hfinds Hfinds') as [<- <-].
        congruence. }
    destruct (to_string id) as [hostnameId|] eqn:Hstr.
    2:{ eexists _, _. split; [done|]. split; [intros; exfalso; eauto|].
        split; [done|]. intros (f & w & i & h & r & w2 & Hfinds' & Hid' & Hstr' & _).
        destruct (lookup_finds_unique _ _ _ _ _ _ _ Hfinds Hfinds') as [<- <-].
        congruence. }
    destruct (fetch (delete_request env hostnameId) w1) as [[deleteResponse|] w2] eqn:Hd.
    + eexists _, _. split; [done|]. split; [intros; exfalso; eauto|].
      split; [intros Hb; by exists first, w1, id, hostnameId, deleteResponse, w2|].
      intros (f & w & i & h & r & w2' & Hfinds' & Hid' & Hstr' & Hd' & Hok').
      destruct (lookup_finds_unique _ _ _ _ _ _ _ Hfinds Hfinds') as [<- <-].
      congruence.
    + eexists _, _. split; [done|]. split; [intros; exfalso; eauto|].
      split; [done|].
      intros (f & w & i & h & r & w2' & Hfinds' & Hid' & Hstr' & Hd' & Hok').
      destruct (lookup_finds_unique _ _ _ _ _ _ _ Hfinds Hfinds') as [<- <-].
      congruence.
  - rewrite (deleteCustomHostname_missed env hostname s outcome w1 Hc Hf Hmiss).
    eexists _, _. split; [done|]. split.
    + by intros o w [= -> ->] _.
    + split; [done|]. intros (f & w & i & h & r & w2 & Hfinds' & _).
      destruct Hmiss. exists f.
      destruct Hfinds' as (r' & bd & l & n & Hf' & Hrest).
      rewrite Hf in Hf'. injection Hf' as -> ->.
      exists r', bd, l, n. by rewrite Hf.
Qed.

(** C4, on the code. The claim asks for "API request failed" on every
    response without a successful status, whatever its body.  The body is
    parsed before the status is looked at, so when it does not parse the
    catch-all answers instead: the result is "Network error", though the
    call itself went through. *)
Theorem getCustomHostnameStatus_failed_unparseable
    (env : Env) (hostname : string) (s : net world) (resp : response) (w1 : world) :
  configured env →
  fetch (lookup_request env hostname) (net_world s) = (Normal resp, w1) →
  ok resp = false →
  json resp = Throw →
  getCustomHostnameStatus fetch env hostname s =
    (Normal (VObj {[ "status" := VStr "error";
                     "verification_errors" := VArr [VStr "Network error"] ]}),
     after_call s (lookup_request env hostname) w1).
Proof.
  intros Hc%isApiConfigured_true Hf Hok Hj. run_client.
  rewrite Hc. simpl. by rewrite Hf, Hj.
Qed.

(** Both operations that look a hostname up start with the same request. *)
Lemma lookup_is_first_call (env : Env) (hostname : string) (s : net world) :
  isApiConfigured env = true →
  (∃ out w1,
     getCustomHostnameStatus fetch env hostname s =
       (Normal out, after_call s (lookup_request env hostname) w1)) ∧
  (∃ (b : bool) s' more,
     deleteCustomHostname fetch env hostname s = (Normal b, s') ∧
     net_calls s' = net_calls s ++ lookup_request env hostname :: more).
Proof.
  intros Hc.
  destruct (fetch (lookup_request env hostname) (net_world s)) as [outcome w1] eqn:Hf.
  destruct (lookup_finds_or_not env hostname (net_world s) outcome w1 Hf)
    as [[first Hfinds] | Hmiss]; split.
  - rewrite (getCustomHostnameStatus_found env hostname s first w1 Hc Hfinds).
    destruct (hostname_status first); eauto.
  - rewrite (deleteCustomHostname_found env hostname s first w1 Hc Hfinds).
    destruct (get_prop first "id" ≫= to_string) as [hostnameId|].
    + destruct (fetch (delete_request env hostnameId) w1) as [outcome2 w2].
      eexists _, _, [_]. split; [done|]. simpl. by rewrite <- app_assoc.
    + by eexists _, _, [].
  - destruct (getCustomHostnameStatus_missed env hostname s outcome w1 Hc Hf Hmiss)
      as (out & -> & _). eauto.
  - rewrite (deleteCustomHostname_missed env hostname s outcome w1 Hc Hf Hmiss).
    by eexists _, _, [].
Qed.

(** C10. For a configured client, the request both
    [getCustomHostnameStatus] and [deleteCustomHostname] issue first has
    the URL made of the fixed prefix, the zone, the path and the hostname
    as given, nothing escaped.  So when the hostname holds ["&"] or ["#"],
    that URL is not the one that filters by the literal hostname, whose
    query component is percent-encoded. *)
Theorem lookup_url_verbatim (env : Env) (hostname : string) (s : net world) :
  configured env →
  ∃ zone,
    CLOUDFLARE_ZONE_ID env = Some zone ∧
    req_url (lookup_request env hostname) =
      "https://api.cloudflare.com/client/v4/zones/" +:+ zone
      +:+ "/custom_hostnames?hostname=" +:+ hostname ∧
    (∃ out w1,
       getCustomHostnameStatus fetch env hostname s =
         (Normal out, after_call s (lookup_request env hostname) w1)) ∧
    (∃ (b : bool) s' more,
       deleteCustomHostname fetch env hostname s = (Normal b, s') ∧
       net_calls s' = net_calls s ++ lookup_request env hostname :: more) ∧
    (∀ c, c ∈ String.list_ascii_of_string hostname → query_metachar c = true →
       req_url (lookup_request env hostname) ≠
         "https://api.cloudflare.com/client/v4/zones/" +:+ zone
         +:+ "/custom_hostnames?hostname=" +:+ encodeURIComponent hostname).
Proof.
  intros Hconf. pose proof Hconf as (zone & token & Hzone & _).
  apply isApiConfigured_true in Hconf.
  destruct (lookup_is_first_call env hostname s Hconf) as [Hget Hdel].
  exists zone. split; [done|].
  assert (Hurl : req_url (lookup_request env hostname) =
                   "https://api.cloudflare.com/client/v4/zones/" +:+ zone
                   +:+ "/custom_hostnames?hostname=" +:+ hostname)
    by (unfold lookup_request; simpl; by rewrite Hzone).
  split_and!; [done|done|done|].
  intros c Hin Hmeta. rewrite Hurl. intros Heq.
  do 3 apply (inj (String.app _)) in Heq.
  by apply (encodeURIComponent_changes hostname c).
Qed.

End ClientFacts.

(** ** The properties at concrete inputs *)

Lemma example_env_configured : configured example_env.
Proof. exists "zone-1", "secret". by split_and!. Defined.

(** C2 at a configuration with no zone: nothing is served from the script. *)
Lemma unconfigured_no_network_witness :
  unconfigured token_only_env ∧
  createCustomHostname fetch_script token_only_env "app.example.com"
    (start [replies VNull]) = (Normal false, start [replies VNull]) ∧
  getCustomHostnameStatus fetch_script token_only_env "app.example.com"
    (start [replies VNull]) =
    (Normal (VObj {[ "status" := VStr "error";
                     "verification_errors" := VArr [VStr "API not configured"] ]}),
     start [replies VNull]) ∧
  deleteCustomHostname fetch_script token_only_env "app.example.com"
    (start [replies VNull]) = (Normal false, start [replies VNull]).
Proof.
  split; [by left|].
  apply (unconfigured_no_network fetch_script token_only_env "app.example.com").
  by left.
Defined.

(** C4 at the failing input: a response without a successful status whose
    body is not JSON. *)
Lemma getCustomHostnameStatus_failed_unparseable_witness :
  getCustomHostnameStatus fetch_script example_env "app.example.com"
    (start [failed_unparseable]) =
    (Normal (VObj {[ "status" := VStr "error";
                     "verification_errors" := VArr [VStr "Network error"] ]}),
     after_call (start [failed_unparseable])
       (lookup_request example_env "app.example.com") []).
Proof.
  apply (getCustomHostnameStatus_failed_unparseable fetch_script example_env
           "app.example.com" (start [failed_unparseable])
           {| ok := false; json := Throw |} []);
    [apply example_env_configured | reflexivity | reflexivity | reflexivity].
Defined.

(** C5 as stated fails: with two records in the result list and a
    successful DELETE, the result is [true], and the DELETE is addressed by
    the id of the first. *)
Lemma deleteCustomHostname_two_records :
  length two_records = 2 ∧
  fst (deleteCustomHostname fetch_script example_env "app.example.com"
         (start [replies (VObj {[ "result" := VArr two_records ]}); replies VNull]))
    = Normal true ∧
  req_url <$> net_calls
    (snd (deleteCustomHostname fetch_script example_env "app.example.com"
            (start [replies (VObj {[ "result" := VArr two_records ]}); replies VNull])))
    = [ "https://api.cloudflare.com/client/v4/zones/zone-1/custom_hostnames?hostname=app.example.com";
        "https://api.cloudflare.com/client/v4/zones/zone-1/custom_hostnames/x" ].
Proof. split_and!; by vm_compute. Qed.

(** C5, as amended, at that same input. *)
Lemma deleteCustomHostname_first_record_witness :
  ∃ (b : bool) s',
    deleteCustomHostname fetch_script example_env "app.example.com"
      (start [replies (VObj {[ "result" := VArr two_records ]}); replies VNull])
      = (Normal b, s') ∧
    (b = true ↔
       ∃ first w1 id hostnameId deleteResponse w2,
         lookup_finds fetch_script example_env "app.example.com"
           [replies (VObj {[ "result" := VArr two_records ]}); replies VNull] first w1 ∧
         get_prop first "id" = Normal id ∧
         to_string id = Normal hostnameId ∧
         fetch_script (delete_request example_env hostnameId) w1
           = (Normal deleteResponse, w2) ∧
         ok deleteResponse = true).
Proof.
  destruct (deleteCustomHostname_first_record fetch_script example_env "app.example.com"
              (start [replies (VObj {[ "result" := VArr two_records ]}); replies VNull])
              example_env_configured) as (b & s' & Hrun & _ & Hiff).
  by exists b, s'.
Defined.

(** C6 at the example of the specification. *)
Lemma getCustomHostnameStatus_projects_first_record_witness :
  getCustomHostnameStatus fetch_script example_env "app.example.com"
    (start [replies example_body]) =
    (Normal example_status,
     after_call (start [replies example_body])
       (lookup_request example_env "app.example.com") []).
Proof.
  destruct (getCustomHostnameStatus_projects_first_record fetch_script example_env
              "app.example.com" (start [replies example_body])
              {| ok := true; json := Normal example_body |} [] example_body
              {[ "id" := VStr "x";
                 "status" := VStr "pending";
                 "ssl" := VObj {[ "status" := VStr "pending_validation";
                                  "method" := VStr "http" ]} ]} [])
    as (out & Hrun & _ & _ & _ & _ & Hexample);
    [apply example_env_configured | reflexivity | reflexivity | reflexivity
    | reflexivity |].
  rewrite Hrun. by rewrite (Hexample eq_refl).
Defined.

(** C7 at an empty result list. *)
Lemma getCustomHostnameStatus_not_found_witness :
  getCustomHostnameStatus fetch_script example_env "app.example.com"
    (start [replies (VObj {[ "result" := VArr [] ]})]) =
    (Normal (VObj {[ "status" := VStr "not_found" ]}),
     after_call (start [replies (VObj {[ "result" := VArr [] ]})])
       (lookup_request example_env "app.example.com") []).
Proof.
  apply (getCustomHostnameStatus_not_found fetch_script example_env "app.example.com"
           (start [replies (VObj {[ "result" := VArr [] ]})])
           {| ok := true; json := Normal (VObj {[ "result" := VArr [] ]}) |} []
           {[ "result" := VArr [] ]});
    [apply example_env_configured | reflexivity | reflexivity | reflexivity
    | left; reflexivity].
Defined.

(** C8 as stated fails: with a token and no zone the client is not
    configured, and the headers are built all the same. *)
Lemma getAuthHeaders_without_zone :
  unconfigured token_only_env ∧ ¬ configured token_only_env ∧
  getAuthHeaders token_only_env =
    {[ "Authorization" := "Bearer secret"; "Content-Type" := "application/json" ]} ∧
  getAuthHeaders token_only_env ≠ ∅.
Proof.
  split_and!; [by left | by intros (z & t & [=] & _) | reflexivity |].
  intros H. apply (f_equal (λ m : gmap string string, m !! "Authorization")) in H.
  vm_compute in H. discriminate.
Qed.

(** C8, as amended, at that configuration and at one without a token. *)
Lemma getAuthHeaders_by_token_witness :
  getAuthHeaders token_only_env =
    {[ "Authorization" := "Bearer " +:+ "secret"; "Content-Type" := "application/json" ]} ∧
  getAuthHeaders {| CLOUDFLARE_ZONE_ID := Some "zone-1";
                    DISPATCH_NAMESPACE_API_TOKEN := None |} = ∅.
Proof.
  split.
  - apply (proj1 (getAuthHeaders_by_token token_only_env)); [reflexivity | discriminate].
  - apply (proj2 (getAuthHeaders_by_token _)). left. reflexivity.
Defined.

(** C9 as stated fails: the status is copied from the record unexamined, so
    a record whose status is "not_found" and that has an ssl object comes
    back as a "not_found" value carrying an ssl sub-record. *)
Lemma not_found_status_with_ssl :
  ∃ out,
    fst (getCustomHostnameStatus fetch_script example_env "app.example.com"
           (start [replies not_found_record_body])) = Normal out ∧
    get_prop out "status" = Normal (VStr "not_found") ∧
    carries_ssl out.
Proof.
  eexists. split; [by vm_compute|]. split; [by vm_compute|].
  eexists. split; [by vm_compute|]. discriminate.
Qed.

(** C10 at a hostname with an ampersand. *)
Lemma lookup_url_verbatim_witness :
  req_url (lookup_request example_env "a.example.com&b") =
    "https://api.cloudflare.com/client/v4/zones/zone-1/custom_hostnames?hostname=a.example.com&b" ∧
  req_url (lookup_request example_env "a.example.com&b") ≠
    "https://api.cloudflare.com/client/v4/zones/zone-1/custom_hostnames?hostname="
    +:+ encodeURIComponent "a.example.com&b".
Proof.
  destruct (lookup_url_verbatim fetch_script example_env "a.example.com&b"
              (start []) example_env_configured)
    as (zone & [= <-] & Hurl & _ & _ & Hne).
  split; [exact Hurl|].
  apply (Hne "&"%char); [|reflexivity].
  simpl. repeat (apply list_elem_of_here || apply list_elem_of_further).
Defined.

(** * Further properties of the client *)

(** ** Reads and the projection *)

Lemma get_prop_throws (v : value) (name : string) :
  get_prop v name = Throw ↔ nullish v.
Proof.
  unfold nullish. destruct v; simpl; split; try discriminate; eauto;
    intros [|]; discriminate.
Qed.

Lemma get_prop_defined (v : value) (name : string) :
  ¬ nullish v → ∃ x, get_prop v name = Normal x.
Proof.
  intros Hv. destruct (get_prop v name) as [x|] eqn:H; [eauto|].
  by apply get_prop_throws in H.
Qed.

Lemma truthy_not_nullish (v : value) : truthy v = true → ¬ nullish v.
Proof. by intros Ht [-> | ->]. Qed.

Lemma or_default_truthy (x : value) : truthy (Js.or x (VArr [])) = true.
Proof. unfold Js.or. by destruct (truthy x) eqn:Hx. Qed.

(** The shape of every projection. *)
Lemma hostname_status_shape (hostnameData out : value) :
  hostname_status hostnameData = Normal out →
  ∃ status ssl errors,
    out = VObj {[ "status" := status; "ssl" := ssl;
                  "verification_errors" := errors ]} ∧
    truthy errors = true ∧
    (ssl = VUndef ∨
     ∃ ssl_status method validation_errors validation_records,
       ssl = VObj {[ "status" := ssl_status;
                     "validation_method" := method;
                     "validation_errors" := validation_errors;
                     "validation_records" := validation_records ]} ∧
       truthy validation_errors = true ∧ truthy validation_records = true).
Proof.
  unfold hostname_status.
  destruct (get_prop hostnameData "status") as [status|] eqn:Hs; simpl; [|done].
  assert (Hv : ¬ nullish hostnameData).
  { intros Hn. apply (get_prop_throws _ "status") in Hn. congruence. }
  destruct (get_prop_defined _ "ssl" Hv) as [ssl ->].
  destruct (get_prop_defined _ "verification_errors" Hv) as [errors Herrors].
  simpl. destruct (truthy ssl) eqn:Hssl; simpl.
  - apply truthy_not_nullish in Hssl.
    destruct (get_prop_defined _ "status" Hssl) as [a ->].
    destruct (get_prop_defined _ "method" Hssl) as [b ->].
    destruct (get_prop_defined _ "validation_method" Hssl) as [c Hc].
    destruct (get_prop_defined _ "validation_errors" Hssl) as [d ->].
    destruct (get_prop_defined _ "validation_records" Hssl) as [e ->].
    simpl.
    assert (∃ m, (if truthy b then mret b else get_prop ssl "validation_method")
                 = Normal m) as [m ->]
      by (destruct (truthy b); [by eexists | by rewrite Hc; eexists]).
    simpl. rewrite Herrors. simpl. intros [= <-].
    eexists _, _, _. split; [done|]. split; [apply or_default_truthy|].
    right. eexists _, _, _, _. split; [done|]. split; apply or_default_truthy.
  - rewrite Herrors. simpl. intros [= <-].
    eexists _, _, _. split; [done|]. split; [apply or_default_truthy|]. by left.
Qed.

(** A record that is neither [null] nor [undefined] is projected. *)
Lemma hostname_status_defined (hostnameData : value) :
  ¬ nullish hostnameData → ∃ out, hostname_status hostnameData = Normal out.
Proof.
  intros Hv. unfold hostname_status.
  destruct (get_prop_defined _ "status" Hv) as [status ->].
  destruct (get_prop_defined _ "ssl" Hv) as [ssl ->].
  destruct (get_prop_defined _ "verification_errors" Hv) as [errors ->].
  simpl. destruct (truthy ssl) eqn:Hssl; simpl; [|by eexists].
  apply truthy_not_nullish in Hssl.
  destruct (get_prop_defined _ "status" Hssl) as [a ->].
  destruct (get_prop_defined _ "method" Hssl) as [b ->].
  destruct (get_prop_defined _ "validation_method" Hssl) as [c Hc].
  destruct (get_prop_defined _ "validation_errors" Hssl) as [d ->].
  destruct (get_prop_defined _ "validation_records" Hssl) as [e ->].
  simpl. destruct (truthy b); [by eexists|]. rewrite Hc. by eexists.
Qed.

(** X9. The projection of a record throws exactly when the record is
    [null] or [undefined]; any other value, object or not, is projected. *)
Theorem hostname_status_throws_iff (hostnameData : value) :
  hostname_status hostnameData = Throw ↔ nullish hostnameData.
Proof.
  split.
  - intros Hthrow.
    destruct (get_prop hostnameData "status") as [status|] eqn:Hs;
      [|by apply get_prop_throws in Hs].
    assert (Hv : ¬ nullish hostnameData).
    { intros Hn. apply (get_prop_throws _ "status") in Hn. congruence. }
    destruct (hostname_status_defined _ Hv) as [out Hout]. congruence.
  - intros [-> | ->]; reflexivity.
Qed.

(** X10. Whatever the record holds, a projection has a [verification_errors]
    that is truthy (the record's own, or the empty list put in its place),
    and when it has an ssl object, so are that object's [validation_errors]
    and [validation_records]: none of the three is ever [null],
    [undefined] or missing in a result. *)
Theorem hostname_status_lists_defined (hostnameData out : value) :
  hostname_status hostnameData = Normal out →
  (∃ errors, get_prop out "verification_errors" = Normal errors ∧
             truthy errors = true) ∧
  (∀ ssl, get_prop out "ssl" = Normal ssl → ssl ≠ VUndef →
     ∃ validation_errors validation_records,
       get_prop ssl "validation_errors" = Normal validation_errors ∧
       truthy validation_errors = true ∧
       get_prop ssl "validation_records" = Normal validation_records ∧
       truthy validation_records = true).
Proof.
  intros (status & ssl & errors & -> & Herr & Hssl)%hostname_status_shape. split.
  - exists errors. split; [|done]. simpl. unfold read.
    by rewrite !lookup_insert_ne, lookup_singleton_eq by done.
  - intros ssl'. simpl. unfold read at 1.
    rewrite lookup_insert_ne, lookup_insert_eq by done. simpl. intros [= <-] Hdef.
    destruct Hssl as [-> | (a & b & c & d & -> & Hc & Hd)]; [done|].
    exists c, d. by split_and!.
Qed.

(** ** Configuration *)

(** X1. [isApiConfigured] answers [true] exactly when the zone identifier
    and the token are both present and non-empty, and [false] exactly when
    one of them is absent or empty. *)
Theorem isApiConfigured_both_nonempty (env : Env) :
  (isApiConfigured env = true ↔
     ∃ zone token,
       CLOUDFLARE_ZONE_ID env = Some zone ∧ zone ≠ "" ∧
       DISPATCH_NAMESPACE_API_TOKEN env = Some token ∧ token ≠ "") ∧
  (isApiConfigured env = false ↔
     CLOUDFLARE_ZONE_ID env = None ∨ CLOUDFLARE_ZONE_ID env = Some "" ∨
     DISPATCH_NAMESPACE_API_TOKEN env = None ∨
     DISPATCH_NAMESPACE_API_TOKEN env = Some "").
Proof. split; [apply isApiConfigured_true | apply isApiConfigured_false]. Qed.

(** The headers of a configured client. *)
Lemma getAuthHeaders_configured (env : Env) (token : string) :
  DISPATCH_NAMESPACE_API_TOKEN env = Some token → token ≠ "" →
  getAuthHeaders env =
    {[ "Authorization" := "Bearer " +:+ token;
       "Content-Type" := "application/json" ]}.
Proof.
  intros Ht Hne%nonempty_eqb. unfold getAuthHeaders. rewrite Ht. simpl.
  by rewrite Hne.
Qed.

(** Each of the three requests of a configured client bears its token. *)
Lemma requests_bear_token (env : Env) (hostname hostnameId : string) :
  configured env →
  bears_token env (create_request env hostname) ∧
  bears_token env (lookup_request env hostname) ∧
  bears_token env (delete_request env hostnameId).
Proof.
  intros (zone & token & _ & _ & Ht & Htne).
  split_and!; exists token; (split_and!; [done|done|]);
    by apply getAuthHeaders_configured.
Qed.

(** ** The result type *)

Lemma own_results_typed :
  is_CustomHostnameStatus status_not_found = true ∧
  ∀ message, is_CustomHostnameStatus (status_error message) = true.
Proof. split; [reflexivity | intros message; reflexivity]. Qed.

(** Reads on an object literal. *)
Lemma read_insert_eq (fields : gmap string value) (name : string) (v : value) :
  read (<[name:=v]> fields) name = v.
Proof. unfold read. by rewrite lookup_insert_eq. Qed.

Lemma read_insert_ne (fields : gmap string value) (name other : string) (v : value) :
  name ≠ other → read (<[name:=v]> fields) other = read fields other.
Proof. intros Hne. unfold read. by rewrite lookup_insert_ne. Qed.

Lemma read_singleton_eq (name : string) (v : value) :
  read {[name:=v]} name = v.
Proof. unfold read. by rewrite lookup_singleton_eq. Qed.

(** A list that is of the element type or missing is, once defaulted, of
    the element type. *)
Lemma or_default_typed (p : value → bool) (x : value) :
  optional (array_of p) x = true →
  optional (array_of p) (Js.or x (VArr [])) = true.
Proof. by destruct x. Qed.

Lemma or_optional_string (a b : value) :
  optional is_string a = true → optional is_string b = true →
  optional is_string (Js.or a b) = true.
Proof. unfold Js.or. by destruct (truthy a). Qed.

(** The projection of a record that is itself of the declared type, with a
    string for its ssl [method] when it has one, is of the declared type. *)
Lemma hostname_status_typed (hostnameData out : value) :
  hostname_status hostnameData = Normal out →
  is_CustomHostnameStatus hostnameData = true →
  (∀ ssl, get_prop hostnameData "ssl" = Normal (VObj ssl) →
          optional is_string (read ssl "method") = true) →
  is_CustomHostnameStatus out = true.
Proof.
  intros Hout Htyped Hmethod.
  destruct hostnameData as [| | | | | |fields]; try discriminate.
  simpl in Htyped.
  apply andb_prop in Htyped as [[Hstatus Hssl]%andb_prop Herrors].
  destruct (hostname_status_object fields) as (ssl_out & Hobj & Hnone & Hsome).
  rewrite Hobj in Hout. injection Hout as <-.
  simpl.
  rewrite read_insert_eq.
  rewrite read_insert_ne, read_insert_eq by done.
  rewrite !read_insert_ne, read_singleton_eq by done.
  rewrite Hstatus, (or_default_typed _ _ Herrors), andb_true_r. simpl.
  destruct (read fields "ssl") as [| | | | | |ssl] eqn:Hread; try discriminate.
  - by rewrite (Hnone eq_refl).
  - destruct (Hsome eq_refl) as (a & b & c & d & e & [= <-] & [= <-] & [= <-]
                                   & [= <-] & [= <-] & ->).
    specialize (Hmethod ssl). simpl in Hmethod. rewrite Hread in Hmethod.
    specialize (Hmethod eq_refl).
    simpl in Hssl.
    apply andb_prop in Hssl as [[[Hs Hvm]%andb_prop He]%andb_prop Hr].
    simpl.
    rewrite read_insert_eq.
    rewrite read_insert_ne, read_insert_eq by done.
    rewrite !read_insert_ne, read_insert_eq by done.
    rewrite !read_insert_ne, read_singleton_eq by done.
    by rewrite Hs, (or_optional_string _ _ Hmethod Hvm),
      (or_default_typed _ _ He), (or_default_typed _ _ Hr).
Qed.

(** ** Traces *)

Section ClientTraces.

Context {world : Type}.
Variable fetch : request → world → completion response * world.

(** The two ways a configured [deleteCustomHostname] can go: the lookup
    alone, answered [false]; or the lookup and one DELETE, answered by the
    status of the DELETE. *)
Lemma deleteCustomHostname_outcomes (env : Env) (hostname : string) (s : net world) :
  isApiConfigured env = true →
  ∃ w1,
    deleteCustomHostname fetch env hostname s =
      (Normal false, after_call s (lookup_request env hostname) w1) ∨
    ∃ first id hostnameId outcome w2,
      lookup_finds fetch env hostname (net_world s) first w1 ∧
      get_prop first "id" = Normal id ∧
      to_string id = Normal hostnameId ∧
      fetch (delete_request env hostnameId) w1 = (outcome, w2) ∧
      deleteCustomHostname fetch env hostname s =
        (Normal (match outcome with
                 | Normal deleteResponse => ok deleteResponse
                 | Throw => false
                 end),
         after_call (after_call s (lookup_request env hostname) w1)
                    (delete_request env hostnameId) w2).
Proof.
  intros Hc.
  destruct (fetch (lookup_request env hostname) (net_world s)) as [outcome w1] eqn:Hf.
  exists w1.
  destruct (lookup_finds_or_not fetch env hostname (net_world s) outcome w1 Hf)
    as [[first Hfinds] | Hmiss].
  - rewrite (deleteCustomHostname_found fetch env hostname s first w1 Hc Hfinds).
    destruct (get_prop first "id") as [id|] eqn:Hid; simpl; [|by left].
    destruct (to_string id) as [hostnameId|] eqn:Hstr; [|by left].
    destruct (fetch (delete_request env hostnameId) w1) as [outcome2 w2] eqn:Hd.
    right. by exists first, id, hostnameId, outcome2, w2.
  - left. by apply (deleteCustomHostname_missed fetch env hostname s outcome w1).
Qed.

(** X2. Every request any of the three operations issues bears the token
    of the configuration: its headers are exactly [Authorization], the
    non-empty token after "Bearer ", and [Content-Type].  No request ever
    leaves without the token: the empty header set of [getAuthHeaders] is
    never sent. *)
Theorem issued_requests_bear_token (env : Env) (hostname : string) (s : net world) :
  (∃ (b : bool) s' more,
     createCustomHostname fetch env hostname s = (Normal b, s') ∧
     net_calls s' = net_calls s ++ more ∧
     Forall (bears_token env) more) ∧
  (∃ (out : value) s' more,
     getCustomHostnameStatus fetch env hostname s = (Normal out, s') ∧
     net_calls s' = net_calls s ++ more ∧
     Forall (bears_token env) more) ∧
  (∃ (b : bool) s' more,
     deleteCustomHostname fetch env hostname s = (Normal b, s') ∧
     net_calls s' = net_calls s ++ more ∧
     Forall (bears_token env) more).
Proof.
  destruct (isApiConfigured env) eqn:Hc.
  - pose proof Hc as Hconf%isApiConfigured_true.
    split_and!.
    + run_client. rewrite Hc. simpl.
      destruct (fetch (create_request env hostname) (net_world s)) as [[resp|] w1];
        eexists _, _, [_]; (split_and!; [done|done|]);
        apply Forall_singleton; by apply (requests_bear_token env hostname "").
    + destruct (lookup_is_first_call fetch env hostname s Hc) as [(out & w1 & ->) _].
      eexists _, _, [_]. split_and!; [done|done|].
      apply Forall_singleton. by apply (requests_bear_token env hostname "").
    + destruct (deleteCustomHostname_outcomes env hostname s Hc)
        as (w1 & [-> | (first & id & hostnameId & outcome & w2 & _ & _ & _ & _ & ->)]).
      * eexists _, _, [_]. split_and!; [done|done|].
        apply Forall_singleton. by apply (requests_bear_token env hostname "").
      * eexists _, _, [_; _]. split_and!; [done|simpl; by rewrite <- app_assoc|].
        apply Forall_cons_2; [|apply Forall_singleton].
        -- by apply (requests_bear_token env hostname "").
        -- by apply (requests_bear_token env hostname hostnameId).
  - run_client. rewrite Hc. simpl.
    split_and!; eexists _, _, []; by rewrite app_nil_r.
Qed.

(** X3. [getCustomHostnameStatus] only reads: it issues at most one
    request, the lookup, which has no method of its own (a GET) and no
    body; it never issues a POST or a DELETE. *)
Theorem getCustomHostnameStatus_read_only (env : Env) (hostname : string) (s : net world) :
  ∃ (out : value) s' more,
    getCustomHostnameStatus fetch env hostname s = (Normal out, s') ∧
    net_calls s' = net_calls s ++ more ∧
    (more = [] ∨ more = [lookup_request env hostname]) ∧
    Forall (λ req, req_method req = None ∧ req_body req = None) more.
Proof.
  destruct (isApiConfigured env) eqn:Hc.
  - destruct (lookup_is_first_call fetch env hostname s Hc) as [(out & w1 & ->) _].
    eexists _, _, [_]. split_and!; [done|done|by right|].
    by apply Forall_singleton.
  - run_client. rewrite Hc. simpl.
    eexists _, _, []. split_and!; [done|by rewrite app_nil_r|by left|done].
Qed.

(** X4. [deleteCustomHostname] issues nothing, or the lookup alone, or the
    lookup followed by one DELETE, never more; no request of it has a body
    and none is a POST; and it answers [true] only when the DELETE was
    issued. *)
Theorem deleteCustomHostname_calls (env : Env) (hostname : string) (s : net world) :
  ∃ (b : bool) s' more,
    deleteCustomHostname fetch env hostname s = (Normal b, s') ∧
    net_calls s' = net_calls s ++ more ∧
    (more = [] ∨ more = [lookup_request env hostname] ∨
     ∃ hostnameId,
       more = [lookup_request env hostname; delete_request env hostnameId]) ∧
    Forall (λ req, req_body req = None ∧ req_method req ≠ Some "POST") more ∧
    (b = true →
     ∃ hostnameId,
       more = [lookup_request env hostname; delete_request env hostnameId]).
Proof.
  destruct (isApiConfigured env) eqn:Hc.
  - destruct (deleteCustomHostname_outcomes env hostname s Hc)
      as (w1 & [-> | (first & id & hostnameId & outcome & w2 & _ & _ & _ & _ & ->)]).
    + eexists _, _, [_]. split_and!; [done|done|by right; left| |done].
      by apply Forall_singleton.
    + eexists _, _, [_; _].
      split_and!; [done|simpl; by rewrite <- app_assoc|right; right; by eexists
                  | |intros _; by eexists].
      apply Forall_cons_2; [done|]. by apply Forall_singleton.
  - run_client. rewrite Hc. simpl.
    eexists _, _, []. split_and!; [done|by rewrite app_nil_r|by left|done|done].
Qed.

(** X5. A record without an [id] does not stop [deleteCustomHostname]: the
    missing id renders as "undefined", the DELETE is issued at
    [.../custom_hostnames/undefined], and the answer is the status of that
    call ([false] when it is rejected). *)
Theorem deleteCustomHostname_record_without_id
    (env : Env) (hostname : string) (s : net world) (resp : response) (w1 : world)
    (body : value) (fields : gmap string value) (rest : list value)
    (outcome : completion response) (w2 : world) :
  configured env →
  fetch (lookup_request env hostname) (net_world s) = (Normal resp, w1) →
  ok resp = true →
  json resp = Normal body →
  get_prop body "result" = Normal (VArr (VObj fields :: rest)) →
  fields !! "id" = None →
  fetch (delete_request env "undefined") w1 = (outcome, w2) →
  deleteCustomHostname fetch env hostname s =
    (Normal (match outcome with
             | Normal deleteResponse => ok deleteResponse
             | Throw => false
             end),
     after_call (after_call s (lookup_request env hostname) w1)
                (delete_request env "undefined") w2) ∧
  req_url (delete_request env "undefined") =
    "https://api.cloudflare.com/client/v4/zones/"
    +:+ field_text (CLOUDFLARE_ZONE_ID env) +:+ "/custom_hostnames/undefined".
Proof.
  intros Hc%isApiConfigured_true Hf Hok Hj Hres Hid Hd. split; [|done].
  rewrite (deleteCustomHostname_found fetch env hostname s (VObj fields) w1 Hc)
    by eauto using lookup_finds_array.
  simpl. unfold read. rewrite Hid. simpl. by rewrite Hd.
Qed.

(** X6. A successful response whose body is JSON [null], or whose [result]
    list starts with [null], or whose [result] is an object with neither a
    [length] nor an element 0, makes a read throw: [getCustomHostnameStatus]
    then reports "Network error" and [deleteCustomHostname] answers [false]
    without a DELETE, though the network did not fail. *)
Theorem malformed_body_is_network_error
    (env : Env) (hostname : string) (s : net world) (resp : response) (w1 : world)
    (body : value) :
  configured env →
  fetch (lookup_request env hostname) (net_world s) = (Normal resp, w1) →
  ok resp = true →
  json resp = Normal body →
  body = VNull ∨
  (∃ rest, get_prop body "result" = Normal (VArr (VNull :: rest))) ∨
  (∃ fields, get_prop body "result" = Normal (VObj fields) ∧
             fields !! "length" = None ∧ fields !! "0" = None) →
  getCustomHostnameStatus fetch env hostname s =
    (Normal (VObj {[ "status" := VStr "error";
                     "verification_errors" := VArr [VStr "Network error"] ]}),
     after_call s (lookup_request env hostname) w1) ∧
  deleteCustomHostname fetch env hostname s =
    (Normal false, after_call s (lookup_request env hostname) w1).
Proof.
  intros Hc%isApiConfigured_true Hf Hok Hj [-> | [[rest Hres] | (fields & Hres & Hlen & H0)]].
  - run_client. rewrite Hc. simpl. by rewrite Hf, Hj, Hok.
  - assert (Hfinds : lookup_finds fetch env hostname (net_world s) VNull w1)
      by eauto using lookup_finds_array.
    rewrite (getCustomHostnameStatus_found fetch env hostname s VNull w1 Hc Hfinds).
    by rewrite (deleteCustomHostname_found fetch env hostname s VNull w1 Hc Hfinds).
  - assert (Hfinds : lookup_finds fetch env hostname (net_world s) VUndef w1).
    { exists resp, body, (VObj fields), VUndef. split_and!; try done.
      - simpl. unfold read. by rewrite Hlen.
      - simpl. unfold read. change (nat_text 0) with "0". by rewrite H0. }
    rewrite (getCustomHostnameStatus_found fetch env hostname s VUndef w1 Hc Hfinds).
    by rewrite (deleteCustomHostname_found fetch env hostname s VUndef w1 Hc Hfinds).
Qed.

(** X11. A successful response whose [result] is falsy ([null], [false],
    [0], the empty string, or missing because the body is a number, a
    string or a boolean) or has a [length] of [0] counts as no match:
    [getCustomHostnameStatus] answers "not_found" and
    [deleteCustomHostname] answers [false] without a DELETE. *)
Theorem falsy_result_is_no_match
    (env : Env) (hostname : string) (s : net world) (resp : response) (w1 : world)
    (body records : value) :
  configured env →
  fetch (lookup_request env hostname) (net_world s) = (Normal resp, w1) →
  ok resp = true →
  json resp = Normal body →
  get_prop body "result" = Normal records →
  truthy records = false ∨ get_prop records "length" = Normal (VNum "0") →
  getCustomHostnameStatus fetch env hostname s =
    (Normal (VObj {[ "status" := VStr "not_found" ]}),
     after_call s (lookup_request env hostname) w1) ∧
  deleteCustomHostname fetch env hostname s =
    (Normal false, after_call s (lookup_request env hostname) w1).
Proof.
  intros Hc%isApiConfigured_true Hf Hok Hj Hres Hempty.
  run_client. rewrite Hc. simpl. rewrite Hf, Hj, Hok. simpl. rewrite Hres.
  destruct (truthy records) eqn:Ht; simpl; [|done].
  destruct Hempty as [|Hlen]; [done|]. by rewrite Hlen.
Qed.

(** X7. The two lookups agree: when [getCustomHostnameStatus] answers
    exactly [{status: "not_found"}] in some state of the network,
    [deleteCustomHostname] in that state answers [false] after the one
    lookup call, with no DELETE. *)
Theorem not_found_then_delete_false
    (env : Env) (hostname : string) (s s1 : net world) :
  getCustomHostnameStatus fetch env hostname s =
    (Normal (VObj {[ "status" := VStr "not_found" ]}), s1) →
  ∃ w1,
    s1 = after_call s (lookup_request env hostname) w1 ∧
    deleteCustomHostname fetch env hostname s =
      (Normal false, after_call s (lookup_request env hostname) w1).
Proof.
  assert (Hne : ∀ out, out = VObj {[ "status" := VStr "not_found" ]} →
                  get_prop out "verification_errors" = Normal VUndef)
    by (by intros out ->).
  intros Hget.
  destruct (isApiConfigured env) eqn:Hc.
  2:{ revert Hget. run_client. rewrite Hc. simpl. intros Heq.
      assert (Hout : get_prop (status_error "API not configured")
                       "verification_errors" = Normal VUndef)
        by (apply Hne; congruence).
      discriminate. }
  destruct (fetch (lookup_request env hostname) (net_world s)) as [outcome w1] eqn:Hf.
  exists w1.
  destruct (lookup_finds_or_not fetch env hostname (net_world s) outcome w1 Hf)
    as [[first Hfinds] | Hmiss].
  - rewrite (getCustomHostnameStatus_found fetch env hostname s first w1 Hc Hfinds) in Hget.
    destruct (hostname_status first) as [out|] eqn:Hout.
    + assert (Hout' : get_prop out "verification_errors" = Normal VUndef)
        by (apply Hne; congruence).
      apply hostname_status_shape in Hout as (a & b & e & -> & He & _).
      simpl in Hout'. unfold read in Hout'.
      rewrite !lookup_insert_ne, lookup_singleton_eq in Hout' by done.
      simpl in Hout'. injection Hout' as ->. discriminate.
    + assert (Hout' : get_prop (status_error "Network error")
                        "verification_errors" = Normal VUndef)
        by (apply Hne; congruence).
      discriminate.
  - destruct (getCustomHostnameStatus_missed fetch env hostname s outcome w1 Hc Hf Hmiss)
      as (out & Hrun & _).
    rewrite Hrun in Hget. injection Hget as _ <-. split; [done|].
    by apply (deleteCustomHostname_missed fetch env hostname s outcome w1).
Qed.

(** X8. When [deleteCustomHostname] answers [true] in some state of the
    network, [getCustomHostnameStatus] in that state finds the same record
    and answers with its projection: never "not_found", and none of the
    three results it builds without a record. *)
Theorem delete_true_then_status_projected
    (env : Env) (hostname : string) (s s' : net world) :
  deleteCustomHostname fetch env hostname s = (Normal true, s') →
  ∃ first w1 out,
    lookup_finds fetch env hostname (net_world s) first w1 ∧
    hostname_status first = Normal out ∧
    getCustomHostnameStatus fetch env hostname s =
      (Normal out, after_call s (lookup_request env hostname) w1).
Proof.
  intros Hdel.
  destruct (isApiConfigured env) eqn:Hc.
  2:{ revert Hdel. run_client. rewrite Hc. simpl. discriminate. }
  destruct (fetch (lookup_request env hostname) (net_world s)) as [outcome w1] eqn:Hf.
  destruct (lookup_finds_or_not fetch env hostname (net_world s) outcome w1 Hf)
    as [[first Hfinds] | Hmiss].
  - assert (Hv : ¬ nullish first).
    { intros Hn. apply (get_prop_throws _ "id") in Hn.
      rewrite (deleteCustomHostname_found fetch env hostname s first w1 Hc Hfinds) in Hdel.
      rewrite Hn in Hdel. simpl in Hdel. discriminate. }
    destruct (hostname_status_defined first Hv) as [out Hout].
    exists first, w1, out. split_and!; [done|done|].
    rewrite (getCustomHostnameStatus_found fetch env hostname s first w1 Hc Hfinds).
    by rewrite Hout.
  - rewrite (deleteCustomHostname_missed fetch env hostname s outcome w1 Hc Hf Hmiss)
      in Hdel. discriminate.
Qed.

(** What the operations answer when a call is rejected or a body does not
    parse. *)
Lemma getCustomHostnameStatus_caught
    (env : Env) (hostname : string) (s : net world)
    (outcome : completion response) (w1 : world) :
  isApiConfigured env = true →
  fetch (lookup_request env hostname) (net_world s) = (outcome, w1) →
  outcome = Throw ∨ (∃ resp, outcome = Normal resp ∧ json resp = Throw) →
  getCustomHostnameStatus fetch env hostname s =
    (Normal (status_error "Network error"),
     after_call s (lookup_request env hostname) w1).
Proof.
  intros Hc Hf [-> | (resp & -> & Hj)]; run_client; rewrite Hc; simpl;
    rewrite Hf; [done|]. by rewrite Hj.
Qed.

Lemma deleteCustomHostname_caught
    (env : Env) (hostname : string) (s : net world)
    (outcome : completion response) (w1 : world) :
  isApiConfigured env = true →
  fetch (lookup_request env hostname) (net_world s) = (outcome, w1) →
  outcome = Throw ∨ (∃ resp, outcome = Normal resp ∧ json resp = Throw) →
  deleteCustomHostname fetch env hostname s =
    (Normal false, after_call s (lookup_request env hostname) w1).
Proof.
  intros Hc Hf [-> | (resp & -> & Hj)]; run_client; rewrite Hc; simpl;
    rewrite Hf; [done|]. by rewrite Hj.
Qed.


End ClientTraces.

(** ** The further properties at concrete inputs *)

(** X10 at the projection of the example record of the specification. *)
Lemma hostname_status_lists_defined_witness :
  (∃ errors, get_prop example_status "verification_errors" = Normal errors ∧
             truthy errors = true) ∧
  (∀ ssl, get_prop example_status "ssl" = Normal ssl → ssl ≠ VUndef →
     ∃ validation_errors validation_records,
       get_prop ssl "validation_errors" = Normal validation_errors ∧
       truthy validation_errors = true ∧
       get_prop ssl "validation_records" = Normal validation_records ∧
       truthy validation_records = true).
Proof.
  apply (hostname_status_lists_defined
           (VObj {[ "id" := VStr "x";
                    "status" := VStr "pending";
                    "ssl" := VObj {[ "status" := VStr "pending_validation";
                                     "method" := VStr "http" ]} ]})).
  by vm_compute.
Defined.

(** X5 at a record that has a status and no id, the DELETE succeeding. *)
Lemma deleteCustomHostname_record_without_id_witness :
  deleteCustomHostname fetch_script example_env "app.example.com"
    (start [replies (VObj {[ "result" := VArr [VObj {[ "status" := VStr "active" ]}] ]});
            replies VNull]) =
    (Normal true,
     after_call
       (after_call
          (start [replies (VObj {[ "result" := VArr [VObj {[ "status" := VStr "active" ]}] ]});
                  replies VNull])
          (lookup_request example_env "app.example.com") [replies VNull])
       (delete_request example_env "undefined") []) ∧
  req_url (delete_request example_env "undefined") =
    "https://api.cloudflare.com/client/v4/zones/zone-1/custom_hostnames/undefined".
Proof.
  apply (deleteCustomHostname_record_without_id fetch_script example_env
           "app.example.com" _
           {| ok := true;
              json := Normal (VObj {[ "result" :=
                                        VArr [VObj {[ "status" := VStr "active" ]}] ]}) |}
           [replies VNull]
           (VObj {[ "result" := VArr [VObj {[ "status" := VStr "active" ]}] ]})
           {[ "status" := VStr "active" ]} []
           (replies VNull) []);
    [apply example_env_configured | reflexivity | reflexivity | reflexivity
    | reflexivity | reflexivity | reflexivity].
Defined.

(** X6 at a successful response whose body is [null]. *)
Lemma malformed_body_is_network_error_witness :
  getCustomHostnameStatus fetch_script example_env "app.example.com"
    (start [replies VNull]) =
    (Normal (VObj {[ "status" := VStr "error";
                     "verification_errors" := VArr [VStr "Network error"] ]}),
     after_call (start [replies VNull])
       (lookup_request example_env "app.example.com") []) ∧
  deleteCustomHostname fetch_script example_env "app.example.com"
    (start [replies VNull]) =
    (Normal false,
     after_call (start [replies VNull])
       (lookup_request example_env "app.example.com") []).
Proof.
  apply (malformed_body_is_network_error fetch_script example_env "app.example.com"
           (start [replies VNull]) {| ok := true; json := Normal VNull |} [] VNull);
    [apply example_env_configured | reflexivity | reflexivity | reflexivity
    | left; reflexivity].
Defined.

(** X11 at a body whose [result] is [null]. *)
Lemma falsy_result_is_no_match_witness :
  getCustomHostnameStatus fetch_script example_env "app.example.com"
    (start [replies (VObj {[ "result" := VNull ]})]) =
    (Normal (VObj {[ "status" := VStr "not_found" ]}),
     after_call (start [replies (VObj {[ "result" := VNull ]})])
       (lookup_request example_env "app.example.com") []) ∧
  deleteCustomHostname fetch_script example_env "app.example.com"
    (start [replies (VObj {[ "result" := VNull ]})]) =
    (Normal false,
     after_call (start [replies (VObj {[ "result" := VNull ]})])
       (lookup_request example_env "app.example.com") []).
Proof.
  apply (falsy_result_is_no_match fetch_script example_env "app.example.com"
           (start [replies (VObj {[ "result" := VNull ]})])
           {| ok := true; json := Normal (VObj {[ "result" := VNull ]}) |} []
           (VObj {[ "result" := VNull ]}) VNull);
    [apply example_env_configured | reflexivity | reflexivity | reflexivity
    | reflexivity | left; reflexivity].
Defined.

(** X7 at an empty result list. *)
Lemma not_found_then_delete_false_witness :
  ∃ w1,
    after_call (start [replies (VObj {[ "result" := VArr [] ]})])
      (lookup_request example_env "app.example.com") [] =
      after_call (start [replies (VObj {[ "result" := VArr [] ]})])
        (lookup_request example_env "app.example.com") w1 ∧
    deleteCustomHostname fetch_script example_env "app.example.com"
      (start [replies (VObj {[ "result" := VArr [] ]})]) =
      (Normal false,
       after_call (start [replies (VObj {[ "result" := VArr [] ]})])
         (lookup_request example_env "app.example.com") w1).
Proof.
  apply (not_found_then_delete_false fetch_script example_env "app.example.com").
  reflexivity.
Defined.

(** X8 at the example body of the specification, the DELETE succeeding. *)
Lemma delete_true_then_status_projected_witness :
  ∃ first w1 out,
    lookup_finds fetch_script example_env "app.example.com"
      [replies example_body; replies VNull] first w1 ∧
    hostname_status first = Normal out ∧
    getCustomHostnameStatus fetch_script example_env "app.example.com"
      (start [replies example_body; replies VNull]) =
      (Normal out,
       after_call (start [replies example_body; replies VNull])
         (lookup_request example_env "app.example.com") w1).
Proof.
  apply (delete_true_then_status_projected fetch_script example_env "app.example.com"
           (start [replies example_body; replies VNull])
           (after_call
              (after_call (start [replies example_body; replies VNull])
                 (lookup_request example_env "app.example.com") [replies VNull])
              (delete_request example_env "x") [])).
  reflexivity.
Defined.

